(** * Akumuli query-processing pipeline (src/src/akumuli.cpp, namespace QP)

    Shallow embedding of the stream operators of the query processor.
    Every node is a state machine: [put] takes the node state and a sample
    and returns the new state together with the boolean result of
    [Node::put]; the successor node ([next_]) is part of the state, so a
    chain is a nesting of node states ending in a recording sink.

    Numbers: [aku_ParamId] and [aku_Timestamp] are 64-bit unsigned integers,
    kept as [Z] with the wrap-around written out where the source adds or
    subtracts; [double] values are modelled by rationals [Q] (exact on every
    value used below).  Behaviour that C++ leaves undefined (modulo by zero,
    out-of-range float to integer conversion, erasing [end()]) makes the
    operation return [None]. *)

From Stdlib Require Import ZArith QArith Qround List String Ascii Bool Lia.
From Stdlib Require Import Sorted Permutation.
Import ListNotations.
Open Scope Z_scope.

(** ** Sample model *)

(** Modelled from the spec: the flag values of [aku_PData] are declared in
    akumuli.h, which is not among the sources.  The spec's empty sentinel is
    the zero-initialised [EMPTY_SAMPLE] of the source, so [EMPTY] is 0; the
    other flags are distinct single bits. *)
Module PData.
Definition EMPTY : Z := 0.
Definition PARAMID_BIT : Z := 1.
Definition TIMESTAMP_BIT : Z := 2.
Definition FLOAT_BIT : Z := 16.
Definition BLOB_BIT : Z := 32.
Definition URGENT : Z := 256.
End PData.

Definition AKU_PAYLOAD_FLOAT : Z :=
  Z.lor PData.PARAMID_BIT (Z.lor PData.TIMESTAMP_BIT PData.FLOAT_BIT).

(** Status code passed through [set_error]. *)
Definition AKU_EANOMALY_NEG_VAL : Z := 14.

(** [aku_Sample]: the payload value is the [float64] member of the union. *)
Record aku_Sample := mkSample {
  paramid : Z;
  timestamp : Z;
  payload_type : Z;
  payload_float64 : Q
}.

(** [static aku_Sample EMPTY_SAMPLE = {};] *)
Definition EMPTY_SAMPLE : aku_Sample := mkSample 0 0 0 0.

Definition is_empty (s : aku_Sample) : bool :=
  Z.eqb s.(payload_type) PData.EMPTY.

Definition has_float_bit (s : aku_Sample) : bool :=
  negb (Z.eqb (Z.land s.(payload_type) PData.FLOAT_BIT) 0).

Definition with_timestamp (s : aku_Sample) (ts : Z) : aku_Sample :=
  mkSample s.(paramid) ts s.(payload_type) s.(payload_float64).

Definition with_type (s : aku_Sample) (t : Z) : aku_Sample :=
  mkSample s.(paramid) s.(timestamp) t s.(payload_float64).

Definition TS_MOD : Z := 2 ^ 64.

(** [<] on [double]. *)
Definition Qlt_bool (x y : Q) : bool := negb (Qle_bool y x).

(** ** Node interface *)

(** What a node does to its successor, as observed by a sink. *)
Inductive event :=
| EvPut (s : aku_Sample)
| EvComplete
| EvError (status : Z).

(** [struct Node]: [put], [complete] and [set_error] over a node state. *)
Record NodeOps (S : Type) := {
  n_put : S -> aku_Sample -> S * bool;
  n_complete : S -> S;
  n_set_error : S -> Z -> S
}.
Arguments n_put {S} _ _ _.
Arguments n_complete {S} _ _.
Arguments n_set_error {S} _ _ _.

(** The caller's sink: records every call and accepts every sample. *)
Definition sink_ops : NodeOps (list event) := {|
  n_put := fun tr s => (tr ++ [EvPut s], true);
  n_complete := fun tr => tr ++ [EvComplete];
  n_set_error := fun tr st => tr ++ [EvError st]
|}.

Section WithNext.
Context {D : Type} (next : NodeOps D).

(** Forward a list of samples; stop at the first refusal. *)
Fixpoint put_all (d : D) (l : list aku_Sample) : D * bool :=
  match l with
  | [] => (d, true)
  | s :: l' =>
      let (d', r) := n_put next d s in
      if r then put_all d' l' else (d', false)
  end.

(** ** FilterByIdNode<Predicate> *)

Definition filter_put (op : Z -> bool) (d : D) (sample : aku_Sample) : D * bool :=
  if is_empty sample then n_put next d sample
  else if op sample.(paramid) then n_put next d sample else (d, true).

Definition FilterByIdNode (op : Z -> bool) : NodeOps D := {|
  n_put := filter_put op;
  n_complete := n_complete next;
  n_set_error := n_set_error next
|}.

End WithNext.

(** The predicates built by [make_filter_by_id], [make_filter_by_id_list]
    and [make_filter_out_by_id_list]. *)
Definition filter_by_id_fun (id_ : Z) : Z -> bool := fun id => Z.eqb id id_.
Definition filter_by_id_list_fun (ids : list Z) : Z -> bool :=
  fun id => existsb (Z.eqb id) ids.
Definition filter_out_by_id_list_fun (ids : list Z) : Z -> bool :=
  fun id => negb (existsb (Z.eqb id) ids).

(** ** GroupByStatement *)

Record GroupByStatement := mkGroupBy {
  step_ : Z;
  first_hit_ : bool;
  lowerbound_ : Z;
  upperbound_ : Z
}.

(** [GroupByStatement(aku_Timestamp step)]; [AKU_MIN_TIMESTAMP] is 0. *)
Definition groupby_new (step : Z) : GroupByStatement := mkGroupBy step true 0 0.

Section GroupBy.
Context {D : Type} (next : NodeOps D).

Definition shift_bounds (g : GroupByStatement) (lo hi : Z) : GroupByStatement :=
  mkGroupBy g.(step_) g.(first_hit_) lo hi.

(** [GroupByStatement::put(sample, next)]. *)
Definition groupby_put (g : GroupByStatement) (d : D) (sample : aku_Sample)
    : GroupByStatement * D * bool :=
  if Z.eqb g.(step_) 0 then
    let (d', r) := n_put next d sample in (g, d', r)
  else
    let ts := sample.(timestamp) in
    let step := g.(step_) in
    let g1 :=
      if g.(first_hit_) then
        let aligned := ts / step * step in
        mkGroupBy step false aligned ((aligned + step) mod TS_MOD)
      else g in
    if Z.leb g1.(upperbound_) ts then
      (* Forward direction *)
      let empty := with_timestamp EMPTY_SAMPLE g1.(upperbound_) in
      let (d1, r1) := n_put next d empty in
      if negb r1 then (g1, d1, false)
      else
        let g2 := shift_bounds g1 ((g1.(lowerbound_) + step) mod TS_MOD)
                                  ((g1.(upperbound_) + step) mod TS_MOD) in
        let (d2, r2) := n_put next d1 sample in (g2, d2, r2)
    else if Z.ltb ts g1.(lowerbound_) then
      (* Backward direction *)
      let empty := with_timestamp EMPTY_SAMPLE g1.(upperbound_) in
      let (d1, r1) := n_put next d empty in
      if negb r1 then (g1, d1, false)
      else
        let g2 := shift_bounds g1 ((g1.(lowerbound_) - step) mod TS_MOD)
                                  ((g1.(upperbound_) - step) mod TS_MOD) in
        let (d2, r2) := n_put next d1 sample in (g2, d2, r2)
    else
      let (d2, r2) := n_put next d sample in (g1, d2, r2).

(** ** ScanQueryProcessor (the parts the pipeline uses) *)

Record ScanQueryProcessor := mkScan {
  groupby_ : GroupByStatement;
  root_node_ : D
}.

Definition scan_put (qp : ScanQueryProcessor) (sample : aku_Sample)
    : ScanQueryProcessor * bool :=
  let '(g, d, r) := groupby_put qp.(groupby_) qp.(root_node_) sample in
  (mkScan g d, r).

Definition scan_stop (qp : ScanQueryProcessor) : ScanQueryProcessor :=
  mkScan qp.(groupby_) (n_complete next qp.(root_node_)).

(** The producer: feeds samples while [put] returns true, then calls [stop]. *)
Fixpoint scan_feed (qp : ScanQueryProcessor) (l : list aku_Sample)
    : ScanQueryProcessor :=
  match l with
  | [] => qp
  | s :: l' => let (qp', r) := scan_put qp s in if r then scan_feed qp' l' else qp'
  end.

Definition scan_run (qp : ScanQueryProcessor) (l : list aku_Sample) : ScanQueryProcessor :=
  scan_stop (scan_feed qp l).

End GroupBy.

(** ** Scenarios *)

Definition fsample (id ts : Z) (v : Q) : aku_Sample := mkSample id ts AKU_PAYLOAD_FLOAT v.
Definition sentinel_at (ts : Z) : aku_Sample := with_timestamp EMPTY_SAMPLE ts.

(** Scenario 1: group-by of width 10 feeding an include-set filter for id 7,
    which feeds the sink. *)
Definition scenario1_qp : ScanQueryProcessor :=
  mkScan (groupby_new 10) ([] : list event).

Definition scenario1_inputs : list aku_Sample :=
  [fsample 7 3 1; fsample 8 4 9; fsample 7 12 2; fsample 7 25 3].

Definition scenario1_trace : list event :=
  (scan_run (FilterByIdNode sink_ops (filter_by_id_list_fun [7]))
            scenario1_qp scenario1_inputs).(root_node_).

(** ** RandomSamplingNode *)

(** Lexicographic [<] on [std::make_tuple(timestamp, paramid)]. *)
Definition ts_id_less (l r : aku_Sample) : bool :=
  Z.ltb l.(timestamp) r.(timestamp)
  || (Z.eqb l.(timestamp) r.(timestamp) && Z.ltb l.(paramid) r.(paramid)).

(** A stable sort by a strict order: insertion where [x] (which came first)
    skips only the elements strictly smaller than itself. *)
Fixpoint insert_stable {A} (lt : A -> A -> bool) (x : A) (l : list A) : list A :=
  match l with
  | [] => [x]
  | y :: l' => if lt y x then y :: insert_stable lt x l' else x :: y :: l'
  end.

Fixpoint stable_sort {A} (lt : A -> A -> bool) (l : list A) : list A :=
  match l with
  | [] => []
  | x :: l' => insert_stable lt x (stable_sort lt l')
  end.

(** [samples_.at(ix) = sample]; [at] throws out of range. *)
Fixpoint set_at {A} (l : list A) (ix : nat) (x : A) : option (list A) :=
  match l, ix with
  | [], _ => None
  | _ :: l', O => Some (x :: l')
  | y :: l', S ix' => option_map (cons y) (set_at l' ix' x)
  end.

Section Reservoir.
Context {D : Type} (next : NodeOps D).
(** The node's generator [Rand random_]: one draw returns a value and the
    generator's next state. *)
Context {Rand : Type} (rand_draw : Rand -> Z * Rand).

Record RandomSamplingNode := mkRSN {
  buffer_size_ : Z;
  samples_ : list aku_Sample;
  random_ : Rand;
  rs_next_ : D
}.

Definition rsn_new (buffer_size : Z) (rnd : Rand) (d : D) : RandomSamplingNode :=
  mkRSN buffer_size [] rnd d.

Definition rsn_flush (st : RandomSamplingNode) : RandomSamplingNode * bool :=
  let sorted := stable_sort ts_id_less st.(samples_) in
  let (d, r) := put_all next st.(rs_next_) sorted in
  if r then (mkRSN st.(buffer_size_) [] st.(random_) d, true)
  else (mkRSN st.(buffer_size_) sorted st.(random_) d, false).

Definition rsn_complete (st : RandomSamplingNode) : RandomSamplingNode :=
  let (st1, _) := rsn_flush st in
  mkRSN st1.(buffer_size_) st1.(samples_) st1.(random_) (n_complete next st1.(rs_next_)).

(** [RandomSamplingNode::put]; [None] when [random_() % samples_.size()]
    divides by zero. *)
Definition rsn_put (st : RandomSamplingNode) (sample : aku_Sample)
    : option (RandomSamplingNode * bool) :=
  if is_empty sample then Some (rsn_flush st)
  else
    let size := Z.of_nat (List.length st.(samples_)) in
    if Z.ltb size st.(buffer_size_) then
      (* Just append new values *)
      Some (mkRSN st.(buffer_size_) (st.(samples_) ++ [sample]) st.(random_) st.(rs_next_), true)
    else
      (* Flip a coin *)
      let (r, rnd') := rand_draw st.(random_) in
      if Z.eqb size 0 then None
      else
        let ix := (r mod size) mod 2 ^ 32 in
        if Z.ltb ix st.(buffer_size_) then
          match set_at st.(samples_) (Z.to_nat ix) sample with
          | Some l => Some (mkRSN st.(buffer_size_) l rnd' st.(rs_next_), true)
          | None => None
          end
        else Some (mkRSN st.(buffer_size_) st.(samples_) rnd' st.(rs_next_), true).

Definition rsn_set_error (st : RandomSamplingNode) (status : Z) : RandomSamplingNode :=
  mkRSN st.(buffer_size_) st.(samples_) st.(random_) (n_set_error next st.(rs_next_) status).

(** The producer feeding the node directly, then calling [complete]. *)
Fixpoint rsn_feed (st : RandomSamplingNode) (l : list aku_Sample)
    : option RandomSamplingNode :=
  match l with
  | [] => Some st
  | s :: l' =>
      match rsn_put st s with
      | None => None
      | Some (st', r) => if r then rsn_feed st' l' else Some st'
      end
  end.

End Reservoir.

(** A 32-bit linear congruential generator, used in the concrete runs. *)
Definition lcg (x : Z) : Z * Z :=
  let x' := (1103515245 * x + 12345) mod 2 ^ 32 in (x', x').

(** ** SlidingWindow<State> *)

(** The per-series state interface used by [SlidingWindow]. *)
Class WindowState (S : Type) := {
  ws_default : S;
  ws_add : S -> aku_Sample -> S;
  ws_ready : S -> bool;
  ws_value : S -> Q;
  ws_reset : S -> S
}.

(** [MovingAverageCounter]. *)
Record MovingAverageCounter := mkMAC { acc : Q; num : Z }.

#[export] Instance MovingAverageCounter_state : WindowState MovingAverageCounter := {
  ws_default := mkMAC 0 0;
  ws_add := fun c value => mkMAC (c.(acc) + value.(payload_float64))%Q (c.(num) + 1);
  ws_ready := fun c => negb (Z.eqb c.(num) 0);
  ws_value := fun c => (c.(acc) / inject_Z c.(num))%Q;
  ws_reset := fun _ => mkMAC 0 0
}.

(** [std::unordered_map] as an association list in iteration order. *)
Fixpoint assoc_find {A} (k : Z) (m : list (Z * A)) : option A :=
  match m with
  | [] => None
  | (k', v) :: m' => if Z.eqb k k' then Some v else assoc_find k m'
  end.

Fixpoint assoc_set {A} (k : Z) (v : A) (m : list (Z * A)) : list (Z * A) :=
  match m with
  | [] => [(k, v)]
  | (k', v') :: m' => if Z.eqb k k' then (k', v) :: m' else (k', v') :: assoc_set k v m'
  end.

Fixpoint assoc_erase {A} (k : Z) (m : list (Z * A)) : list (Z * A) :=
  match m with
  | [] => []
  | (k', v') :: m' => if Z.eqb k k' then m' else (k', v') :: assoc_erase k m'
  end.

Section SlidingWindow.
Context {D : Type} (next : NodeOps D).
Context {State : Type} `{WindowState State}.

Record SlidingWindow := mkSW { sw_next_ : D; counters_ : list (Z * State) }.

Fixpoint average_loop (ts : Z) (cs : list (Z * State)) (d : D)
    : list (Z * State) * D * bool :=
  match cs with
  | [] => ([], d, true)
  | (id, state) :: rest =>
      if ws_ready state then
        let sample := mkSample id ts AKU_PAYLOAD_FLOAT (ws_value state) in
        let (d1, r) := n_put next d sample in
        if r then
          let '(rest', d2, r2) := average_loop ts rest d1 in
          ((id, ws_reset state) :: rest', d2, r2)
        else ((id, ws_reset state) :: rest, d1, false)
      else
        let '(rest', d2, r2) := average_loop ts rest d in
        ((id, state) :: rest', d2, r2)
  end.

(** [SlidingWindow::average_samples(ts)]. *)
Definition average_samples (st : SlidingWindow) (ts : Z) : SlidingWindow * bool :=
  let '(cs, d1, r) := average_loop ts st.(counters_) st.(sw_next_) in
  if r then
    let (d2, r2) := n_put next d1 EMPTY_SAMPLE in (mkSW d2 cs, r2)
  else (mkSW d1 cs, false).

(** [SlidingWindow::put]. *)
Definition sw_put (st : SlidingWindow) (sample : aku_Sample) : SlidingWindow * bool :=
  if is_empty sample then
    let (st', r) := average_samples st sample.(timestamp) in
    if r then (st', true) else (st', false)
  else
    let state := match assoc_find sample.(paramid) st.(counters_) with
                 | Some s => s | None => ws_default end in
    (mkSW st.(sw_next_) (assoc_set sample.(paramid) (ws_add state sample) st.(counters_)),
     true).

Definition sw_complete (st : SlidingWindow) : SlidingWindow :=
  mkSW (n_complete next st.(sw_next_)) st.(counters_).

Fixpoint sw_feed (st : SlidingWindow) (l : list aku_Sample) : SlidingWindow :=
  match l with
  | [] => st
  | s :: l' => let (st', r) := sw_put st s in if r then sw_feed st' l' else st'
  end.

End SlidingWindow.

(** [MovingAverage] over the sink. *)
Definition moving_average_new : SlidingWindow (State := MovingAverageCounter) :=
  mkSW ([] : list event) [].

Definition scenario2_trace : list event :=
  (sw_feed sink_ops moving_average_new
     [fsample 1 1 2; fsample 1 2 4; fsample 2 3 10; sentinel_at 10]).(sw_next_).


(** ** SpaceSaver<weighted> *)

Record Item := mkItem { count : Q; error : Q }.

(** [(size_t)d] for a [double] [d]: truncation toward zero, undefined when
    the truncated value is not representable. *)
Definition dbl_to_size_t (q : Q) : option Z :=
  let z := if Qle_bool 0 q then Qfloor q else Qceiling q in
  if (0 <=? z) && (z <? 2 ^ 64) then Some z else None.

(** [std::numeric_limits<size_t>::max()] as compared with a [double]
    (rounded to 2^64). *)
Definition SIZE_MAX_AS_DOUBLE : Q := inject_Z (2 ^ 64).

(** The eviction scan of [SpaceSaver::put]: [min] is a [size_t], so every
    count it takes is truncated; the result is [min_iter] (a key, or [end()]
    as [None]) with the final [min]. *)
Fixpoint min_scan (cs : list (Z * Item)) (min : Q) (min_iter : option Z)
    : option (option Z * Q) :=
  match cs with
  | [] => Some (min_iter, min)
  | (k, it) :: rest =>
      if Qlt_bool it.(count) min then
        match dbl_to_size_t it.(count) with
        | Some z => min_scan rest (inject_Z z) (Some k)
        | None => None
        end
      else min_scan rest min min_iter
  end.

Section SpaceSaverNode.
Context {D : Type} (next : NodeOps D).
Context (weighted : bool).

(** [N_], [M_] and [P_] are the fields [N], [M] and [P]. *)
Record SpaceSaver := mkSS {
  ss_next_ : D;
  ss_counters_ : list (Z * Item);
  N_ : Q;
  M_ : nat;
  P_ : Q
}.

(** [SpaceSaver(error, portion, next)]: [M = ceil(1.0/error)]. *)
Definition ss_new (error portion : Q) (d : D) : SpaceSaver :=
  mkSS d [] 0 (Z.to_nat (Qceiling (/ error))) portion.

Definition ss_with (st : SpaceSaver) (d : D) (cs : list (Z * Item)) (n : Q) : SpaceSaver :=
  mkSS d cs n st.(M_) st.(P_).

(** [SpaceSaver::count()]; the emitted samples' timestamp is left
    uninitialised by the source and is 0 here.  [std::sort] with
    [lhs > rhs] is not stable: the stable sort is one of its outcomes. *)
Definition ss_count (st : SpaceSaver) : SpaceSaver * bool :=
  let support := (st.(N_) * st.(P_))%Q in
  let selected := filter (fun kv => Qlt_bool support ((snd kv).(count) - (snd kv).(error))%Q)
                         st.(ss_counters_) in
  let samples := map (fun kv => mkSample (fst kv) 0
                                  (Z.lor PData.PARAMID_BIT PData.FLOAT_BIT)
                                  (snd kv).(count)) selected in
  let sorted := stable_sort (fun l r => Qlt_bool r.(payload_float64) l.(payload_float64))
                            samples in
  let (d, r) := put_all next st.(ss_next_) sorted in
  if r then (ss_with st d [] st.(N_), true)
  else (ss_with st d st.(ss_counters_) st.(N_), false).

Definition ss_complete (st : SpaceSaver) : SpaceSaver :=
  let (st1, _) := ss_count st in
  ss_with st1 (n_complete next st1.(ss_next_)) st1.(ss_counters_) st1.(N_).

Definition ss_set_error (st : SpaceSaver) (status : Z) : SpaceSaver :=
  ss_with st (n_set_error next st.(ss_next_) status) st.(ss_counters_) st.(N_).

(** [SpaceSaver::put]. *)
Definition ss_put (st : SpaceSaver) (sample : aku_Sample) : option (SpaceSaver * bool) :=
  if is_empty sample then Some (ss_count st)
  else if weighted && negb (has_float_bit sample) then Some (st, true)
  else
    let id := sample.(paramid) in
    let weight := if weighted then sample.(payload_float64) else 1%Q in
    let cs := st.(ss_counters_) in
    match assoc_find id cs with
    | None =>
        (* new element *)
        if Nat.eqb (List.length cs) st.(M_) then
          (* remove element with smallest count *)
          match min_scan cs SIZE_MAX_AS_DOUBLE None with
          | Some (Some k, min) =>
              Some (ss_with st st.(ss_next_)
                      (assoc_erase k cs ++ [(id, mkItem (weight + min) min)])
                      (st.(N_) + weight), true)
          | _ => None
          end
        else
          Some (ss_with st st.(ss_next_) (cs ++ [(id, mkItem weight 0)])
                  (st.(N_) + weight), true)
    | Some it =>
        (* increment *)
        Some (ss_with st st.(ss_next_)
                (assoc_set id (mkItem (it.(count) + weight) it.(error)) cs)
                (st.(N_) + weight), true)
    end.

Fixpoint ss_feed (st : SpaceSaver) (l : list aku_Sample) : option SpaceSaver :=
  match l with
  | [] => Some st
  | s :: l' =>
      match ss_put st s with
      | None => None
      | Some (st', r) => if r then ss_feed st' l' else Some st'
      end
  end.

(** The states a node built with error [eps] and portion [p] can reach. *)
Inductive ss_reachable (eps p : Q) (d0 : D) : SpaceSaver -> Prop :=
| ss_reach_new : ss_reachable eps p d0 (ss_new eps p d0)
| ss_reach_put : forall st s st' r,
    ss_reachable eps p d0 st -> ss_put st s = Some (st', r) ->
    ss_reachable eps p d0 st'
| ss_reach_complete : forall st,
    ss_reachable eps p d0 st -> ss_reachable eps p d0 (ss_complete st)
| ss_reach_set_error : forall st status,
    ss_reachable eps p d0 st -> ss_reachable eps p d0 (ss_set_error st status).

End SpaceSaverNode.

(** ** AnomalyDetector *)

Section AnomalyDetectorNode.
Context {D : Type} (next : NodeOps D).
(** The forecasting detector [AnomalyDetectorIface] (outside the sources):
    [add], the const query [is_anomaly_candidate], [move_sliding_window]. *)
Context {Det : Type} (det_add : Det -> Z -> Q -> Det)
        (det_is_anomaly_candidate : Det -> Z -> bool)
        (det_move_sliding_window : Det -> Det).

Record AnomalyDetector := mkAD { detector_ : Det; ad_next_ : D }.

Definition ad_set_error (st : AnomalyDetector) (status : Z) : AnomalyDetector :=
  mkAD st.(detector_) (n_set_error next st.(ad_next_) status).

Definition ad_complete (st : AnomalyDetector) : AnomalyDetector :=
  mkAD st.(detector_) (n_complete next st.(ad_next_)).

(** [AnomalyDetector::put]. *)
Definition ad_put (st : AnomalyDetector) (sample : aku_Sample) : AnomalyDetector * bool :=
  if is_empty sample then
    let det := det_move_sliding_window st.(detector_) in
    let (d, r) := n_put next st.(ad_next_) sample in (mkAD det d, r)
  else if has_float_bit sample then
    if Qlt_bool sample.(payload_float64) 0 then
      (ad_set_error st AKU_EANOMALY_NEG_VAL, false)
    else
      let det := det_add st.(detector_) sample.(paramid) sample.(payload_float64) in
      if det_is_anomaly_candidate det sample.(paramid) then
        let anomaly := with_type sample (Z.lor sample.(payload_type) PData.URGENT) in
        let (d, r) := n_put next st.(ad_next_) anomaly in (mkAD det d, r)
      else (mkAD det st.(ad_next_), true)
  else
    (* Ignore BLOBs *)
    (st, true).

End AnomalyDetectorNode.

(** A detector flagging values above a fixed threshold, for concrete runs. *)
Definition threshold_det_add (_ : Q) (_ : Z) (v : Q) : Q := v.
Definition threshold_det_candidate (last : Q) (_ : Z) : bool := Qlt_bool 100 last.
Definition threshold_det_move (last : Q) : Q := last.

(** ** NodeBuilder::make_sampler *)

(** [Node::NodeType], as returned by the nodes' [get_type]. *)
Module Node.
Inductive NodeType :=
  | RandomSampler | FilterById | Resampler | MovingAverage | MovingMedian
  | SpaceSaver | AnomalyDetector.
End Node.

(** The exceptions that can leave [make_sampler], and the two it catches. *)
Inductive Exc :=
| NodeException (tag : Node.NodeType) (msg : string)
| QueryParserError (msg : string)
| UntypedThrow (msg : string)   (* [throw "Not implemented"] *)
| ptree_error                   (* ptree_bad_path, ptree_bad_data *)
| bad_lexical_cast.

Definition Result (A : Type) : Type := (Exc + A)%type.

Definition rbind {A B} (m : Result A) (f : A -> Result B) : Result B :=
  match m with inl e => inl e | inr a => f a end.

Notation "x <- m ;; f" := (rbind m (fun x => f))
  (at level 61, m at next level, right associativity).

Inductive FcastMethod :=
| SMA | EWMA | SMA_SKETCH | EWMA_SKETCH
| DOUBLE_HOLT_WINTERS | DOUBLE_HOLT_WINTERS_SKETCH.

(** The node [make_sampler] returns, with its construction arguments. *)
Inductive Sampler :=
| MkRandomSampling (nsize : Z)
| MkMovingAverage
| MkMovingMedian
| MkFrequentItems (error portion : Q)
| MkHeavyHitters (error portion : Q)
| MkAnomalyDetector (hashes bits : Z) (threshold : Q) (window : Z) (method : FcastMethod).

Definition sampler_get_type (s : Sampler) : Node.NodeType :=
  match s with
  | MkRandomSampling _ => Node.RandomSampler
  | MkMovingAverage => Node.MovingAverage
  | MkMovingMedian => Node.MovingMedian
  | MkFrequentItems _ _ | MkHeavyHitters _ _ => Node.SpaceSaver
  | MkAnomalyDetector _ _ _ _ _ => Node.AnomalyDetector
  end.

(** The node kind a description's [name] asks for. *)
Definition name_node_type (name : string) : option Node.NodeType :=
  if String.eqb name "reservoir" then Some Node.RandomSampler
  else if String.eqb name "moving-average" then Some Node.MovingAverage
  else if String.eqb name "moving-median" then Some Node.MovingMedian
  else if String.eqb name "frequent-items" then Some Node.SpaceSaver
  else if String.eqb name "heavy-hitters" then Some Node.SpaceSaver
  else if String.eqb name "anomaly-detector" then Some Node.AnomalyDetector
  else None.

(** A JSON object description as a [boost::property_tree::ptree] of leaves:
    native JSON numbers and booleans are stored as strings as well. *)
Definition ptree := list (string * string).

Fixpoint pt_find (k : string) (pt : ptree) : option string :=
  match pt with
  | [] => None
  | (k', v) :: pt' => if String.eqb k k' then Some v else pt_find k pt'
  end.

Section Builder.
(** [boost::lexical_cast] / the ptree stream translator for each type. *)
Context (parse_uint32 : string -> option Z) (parse_double : string -> option Q)
        (parse_bool : string -> option bool).

(** [ptree.get<std::string>(key)]: [ptree_bad_path] when missing. *)
Definition get_string (pt : ptree) (k : string) : Result string :=
  match pt_find k pt with Some v => inr v | None => inl ptree_error end.

(** [ptree.get<T>(key)]: [ptree_bad_data] when the value does not parse. *)
Definition get_as {A} (parse : string -> option A) (pt : ptree) (k : string) : Result A :=
  v <- get_string pt k ;;
  match parse v with Some a => inr a | None => inl ptree_error end.

(** [ptree.get<T>(key, default)]. *)
Definition get_default {A} (parse : string -> option A) (pt : ptree) (k : string) (dflt : A) : A :=
  match pt_find k pt with
  | Some v => match parse v with Some a => a | None => dflt end
  | None => dflt
  end.

Definition lexical_cast {A} (parse : string -> option A) (s : string) : Result A :=
  match parse s with Some a => inr a | None => inl bad_lexical_cast end.

Definition parse_anomaly_detector_type (pt : ptree) : Result FcastMethod :=
  approx <- get_as parse_bool pt "approx" ;;
  name <- get_string pt "method" ;;
  if String.eqb name "ewma" then inr (if approx then EWMA_SKETCH else EWMA)
  else if String.eqb name "sma" then inr (if approx then SMA_SKETCH else SMA)
  else if String.eqb name "double-hw" then
    inr (if approx then DOUBLE_HOLT_WINTERS_SKETCH else DOUBLE_HOLT_WINTERS)
  else inl (QueryParserError "Unknown forecasting method").

Definition SLIDING_WINDOW (m : FcastMethod) : bool :=
  match m with SMA | SMA_SKETCH | EWMA | EWMA_SKETCH => true | _ => false end.

Definition HOLT_WINTERS (m : FcastMethod) : bool :=
  match m with DOUBLE_HOLT_WINTERS | DOUBLE_HOLT_WINTERS_SKETCH => true | _ => false end.

Definition unknown_algorithm : Result Sampler :=
  inl (NodeException Node.RandomSampler "invalid sampler description, unknown algorithm").

(** The body of the [try] block. *)
Definition make_sampler_try (pt : ptree) : Result Sampler :=
  name <- get_string pt "name" ;;
  if String.eqb name "reservoir" then
    size <- get_string pt "size" ;;
    nsize <- lexical_cast parse_uint32 size ;;
    inr (MkRandomSampling nsize)
  else if String.eqb name "moving-average" then inr MkMovingAverage
  else if String.eqb name "moving-median" then inr MkMovingMedian
  else if String.eqb name "frequent-items" then
    serror <- get_string pt "error" ;;
    sportion <- get_string pt "portion" ;;
    error <- lexical_cast parse_double serror ;;
    portion <- lexical_cast parse_double sportion ;;
    inr (MkFrequentItems error portion)
  else if String.eqb name "heavy-hitters" then
    serror <- get_string pt "error" ;;
    sportion <- get_string pt "portion" ;;
    error <- lexical_cast parse_double serror ;;
    portion <- lexical_cast parse_double sportion ;;
    inr (MkHeavyHitters error portion)
  else if String.eqb name "anomaly-detector" then
    threshold <- get_as parse_double pt "threshold" ;;
    method <- parse_anomaly_detector_type pt ;;
    if SLIDING_WINDOW method then
      let bits := get_default parse_uint32 pt "bits" 10 in
      let hashes := get_default parse_uint32 pt "hashes" 3 in
      window <- get_as parse_uint32 pt "window" ;;
      inr (MkAnomalyDetector hashes bits threshold window method)
    else if HOLT_WINTERS method then inl (UntypedThrow "Not implemented")
    else unknown_algorithm
  else unknown_algorithm.

(** [NodeBuilder::make_sampler]: the two [catch] clauses. *)
Definition make_sampler (pt : ptree) : Result Sampler :=
  match make_sampler_try pt with
  | inl ptree_error =>
      inl (NodeException Node.RandomSampler "invalid sampler description")
  | inl bad_lexical_cast =>
      inl (NodeException Node.RandomSampler
             "invalid sampler description, valid integer expected")
  | r => r
  end.



End Builder.

(** Decimal parsers standing for [lexical_cast] in concrete runs. *)
Definition digit_value (c : Ascii.ascii) : option Z :=
  let n := Z.of_nat (Ascii.nat_of_ascii c) - 48 in
  if (0 <=? n) && (n <=? 9) then Some n else None.

Fixpoint parse_digits_acc (s : string) (acc : Z) : option Z :=
  match s with
  | EmptyString => Some acc
  | String c s' =>
      match digit_value c with
      | Some d => parse_digits_acc s' (acc * 10 + d)
      | None => None
      end
  end.

Definition dec_uint32 (s : string) : option Z :=
  match s with
  | EmptyString => None
  | _ => match parse_digits_acc s 0 with
         | Some z => if z <? 2 ^ 32 then Some z else None
         | None => None
         end
  end.

Fixpoint parse_fraction (s : string) (num den : Z) : option Q :=
  match s with
  | EmptyString => Some (inject_Z num / inject_Z den)%Q
  | String c s' =>
      match digit_value c with
      | Some d => parse_fraction s' (num * 10 + d) (den * 10)
      | None => None
      end
  end.

Fixpoint parse_decimal (s : string) (acc : Z) : option Q :=
  match s with
  | EmptyString => Some (inject_Z acc)
  | String c s' =>
      if Ascii.eqb c "."%char then parse_fraction s' acc 1
      else match digit_value c with
           | Some d => parse_decimal s' (acc * 10 + d)
           | None => None
           end
  end.

Definition dec_double (s : string) : option Q :=
  match s with
  | EmptyString => None
  | _ => parse_decimal s 0
  end.

Definition dec_bool (s : string) : option bool :=
  if String.eqb s "true" then Some true
  else if String.eqb s "false" then Some false
  else if String.eqb s "1" then Some true
  else if String.eqb s "0" then Some false
  else None.

Definition make_sampler_dec : ptree -> Result Sampler :=
  make_sampler dec_uint32 dec_double dec_bool.


(** Scenario 2: a moving average over the sink. *)
Definition scenario2_inputs : list aku_Sample :=
  [fsample 1 1 2; fsample 1 2 4; fsample 2 3 10; sentinel_at 10].

(** A frequent-items node (error 1/2, portion 1/2) over the sink fed two
    buckets holding one sample of id 1 each. *)
Definition frequent_items_two_buckets : option (SpaceSaver (D := list event)) :=
  ss_feed sink_ops false (ss_new (1 # 2) (1 # 2) [])
    [fsample 1 1 1; sentinel_at 10; fsample 1 12 1; sentinel_at 20].

(** A heavy-hitters node with error 1 (one counter) fed a sample of weight
    5/2 and a sample of weight 1 for another id. *)
Definition heavy_hitters_fractional : option (SpaceSaver (D := list event)) :=
  ss_feed sink_ops true (ss_new 1 1 [])
    [fsample 1 0 (5 # 2); fsample 2 0 1].


(** * Definitions used by the further properties *)



(** What [average_samples] sends for a ready counter, and the counter
    after it. *)
Definition window_emit {State : Type} `{WindowState State} (ts : Z) (kv : Z * State) : event :=
  EvPut (mkSample (fst kv) ts AKU_PAYLOAD_FLOAT (ws_value (snd kv))).

Definition window_after {State : Type} `{WindowState State} (kv : Z * State) : Z * State :=
  (fst kv, if ws_ready (snd kv) then ws_reset (snd kv) else snd kv).

(** The samples [SpaceSaver::count] reports, before sorting. *)
Definition ss_report (st : SpaceSaver (D := list event)) : list aku_Sample :=
  map (fun kv => mkSample (fst kv) 0 (Z.lor PData.PARAMID_BIT PData.FLOAT_BIT) (snd kv).(count))
      (filter (fun kv => Qlt_bool (st.(N_) * st.(P_)) ((snd kv).(count) - (snd kv).(error)))%Q
              st.(ss_counters_)).

(** Once the first sample has been seen, the window is one step wide
    (modulo 2^64, the width of [aku_Timestamp]). *)
Definition groupby_width_ok (g : GroupByStatement) : Prop :=
  g.(first_hit_) = true \/ g.(upperbound_) = (g.(lowerbound_) + g.(step_)) mod TS_MOD.

Record MetadataQueryProcessor {D : Type} := mkMeta {
  ids_ : list Z;
  root_ : D
}.
Arguments MetadataQueryProcessor : clear implicits.
Arguments mkMeta {D}.

Section Metadata.
Context {D : Type} (next : NodeOps D).
(** [aku_Sample s;] leaves the payload's value uninitialised; [junk] is
    whatever it holds. *)
Context (junk : Q).

Definition meta_sample (id : Z) : aku_Sample := mkSample id 0 PData.PARAMID_BIT junk.

Fixpoint meta_start_loop (ids : list Z) (d : D) : D * bool :=
  match ids with
  | [] => (d, true)
  | id :: ids' =>
      let (d', r) := n_put next d (meta_sample id) in
      if negb r then (d', false) else meta_start_loop ids' d'
  end.

(** [MetadataQueryProcessor::start]. *)
Definition meta_start (qp : MetadataQueryProcessor D) : MetadataQueryProcessor D * bool :=
  let (d, r) := meta_start_loop qp.(ids_) qp.(root_) in (mkMeta qp.(ids_) d, r).

(** [MetadataQueryProcessor::put]: a no-op. *)
Definition meta_put (qp : MetadataQueryProcessor D) (sample : aku_Sample)
    : MetadataQueryProcessor D * bool := (qp, false).

(** [MetadataQueryProcessor::stop]. *)
Definition meta_stop (qp : MetadataQueryProcessor D) : MetadataQueryProcessor D :=
  mkMeta qp.(ids_) (n_complete next qp.(root_)).

End Metadata.

(** A sliding-window anomaly-detector description without [bits] and
    [hashes]. *)
Definition anomaly_detector_sma : ptree :=
  [("name", "anomaly-detector"); ("threshold", "2.5"); ("approx", "false");
   ("method", "sma"); ("window", "8")]%string.



(** [std::partial_sort(first, middle, last)] as the C++ standard specifies
    it: a permutation whose first [k] elements are the [k] smallest, in
    order; the order of the rest is unspecified. *)
Definition partial_sort_result (acc : list Q) (k : nat) (r : list Q) : Prop :=
  Permutation r acc
  /\ Sorted Qle (firstn k r)
  /\ (forall x y, In x (firstn k r) -> In y (skipn k r) -> (x <= y)%Q).

(** The values [MovingMedianCounter::value()] can return for the samples
    [acc]; an empty [acc] panics and has none. *)
Definition moving_median_value (acc : list Q) (v : Q) : Prop :=
  match acc with
  | [] => False
  | [x] => v = x
  | _ => exists r, partial_sort_result acc (List.length acc / 2) r
                   /\ nth (List.length acc / 2) r 0%Q = v
  end.

(** * Properties *)

(** ** Concrete runs *)

(** C1: on scenario 2 the moving average emits the two synthesized samples
    at timestamp 10, but then forwards [EMPTY_SAMPLE], whose timestamp is 0:
    the sentinel at 10 never reaches the sink. *)
Theorem moving_average_sentinel_loses_timestamp :
  scenario2_trace =
    [EvPut (mkSample 1 10 AKU_PAYLOAD_FLOAT (6 # 2));
     EvPut (mkSample 2 10 AKU_PAYLOAD_FLOAT 10);
     EvPut (sentinel_at 0)]
  /\ ~ In (EvPut (sentinel_at 10)) scenario2_trace.
Proof.
  split.
  - reflexivity.
  - vm_compute. intros [H | [H | [H | []]]]; discriminate H.
Qed.

(** C2: [SpaceSaver::count] clears the counters but not [N]: after the
    first bucket [N] is still 1, so the second bucket's threshold is
    [2 * 1/2 = 1], and the id that has estimate 1 in it is not reported. *)
Theorem space_saver_count_keeps_N :
  (exists st, ss_feed sink_ops false (ss_new (1 # 2) (1 # 2) [])
                [fsample 1 1 1; sentinel_at 10] = Some st
              /\ st.(ss_counters_) = [] /\ st.(N_) = 1%Q)
  /\ (exists st, frequent_items_two_buckets = Some st
       /\ st.(N_) = 2%Q
       /\ st.(ss_next_) =
            [EvPut (mkSample 1 0 (Z.lor PData.PARAMID_BIT PData.FLOAT_BIT) 1)]).
Proof.
  split; eexists; vm_compute; repeat split; reflexivity.
Qed.

(** The sink's trace in scenario 1, as the source computes it. *)
Definition scenario1_expected : list event :=
  [EvPut (fsample 7 3 1); EvPut (sentinel_at 10); EvPut (fsample 7 12 2);
   EvPut (sentinel_at 20); EvPut (fsample 7 25 3); EvComplete].

(** C3 (amended): in scenario 1 the sink receives exactly (7,3,1.0),
    sentinel@10, (7,12,2.0), sentinel@20, (7,25,3.0), then one complete. *)
Theorem scenario1_sink_receives :
  scenario1_trace = scenario1_expected.
Proof. reflexivity. Qed.

(** C3: the trace the claim expects, with a sentinel at 30 before
    (7,25,3.0), is not what the sink receives: no sentinel at 30 is sent. *)
Lemma scenario1_no_sentinel_at_30 :
  scenario1_trace <>
    [EvPut (fsample 7 3 1); EvPut (sentinel_at 10); EvPut (fsample 7 12 2);
     EvPut (sentinel_at 20); EvPut (sentinel_at 30); EvPut (fsample 7 25 3);
     EvComplete]
  /\ ~ In (EvPut (sentinel_at 30)) scenario1_trace.
Proof.
  vm_compute; split.
  - intro H; discriminate H.
  - intros H; repeat destruct H as [H | H]; try discriminate H; exact H.
Qed.

(** C4: a reservoir of size 0 (accepted by the builder for ["size":"0"])
    reaches [random_() % samples_.size()] with an empty buffer on its first
    data sample: a modulo by zero, so the run is undefined. *)
Theorem reservoir_zero_capacity_undefined :
  rsn_feed sink_ops lcg (rsn_new 0 7 []) [fsample 1 5 1; sentinel_at 10] = None
  /\ make_sampler_dec [("name", "reservoir"); ("size", "0")]%string
     = inr (MkRandomSampling 0).
Proof. split; reflexivity. Qed.

(** C5: with one counter holding 5/2 for id 1, a new id of weight 1 evicts it
    but takes [min = (size_t)2.5 = 2]: the new entry has count 3 and error 2,
    not 7/2 and 5/2. *)
Theorem space_saver_min_count_truncated :
  heavy_hitters_fractional =
    Some (mkSS [] [(2, mkItem 3 2)] (7 # 2) 1 1).
Proof. reflexivity. Qed.

(** C7: a blob sample (no [FLOAT_BIT]) is added to its series' state by the
    moving average; the following sentinel then emits a synthesized sample
    for that series. *)
Theorem moving_average_counts_blobs :
  sw_put sink_ops moving_average_new (mkSample 1 1 PData.BLOB_BIT 0)
    = (mkSW [] [(1, mkMAC 0 1)], true)
  /\ (sw_feed sink_ops moving_average_new
        [mkSample 1 1 PData.BLOB_BIT 0; sentinel_at 10]).(sw_next_)
     = [EvPut (mkSample 1 10 AKU_PAYLOAD_FLOAT 0); EvPut EMPTY_SAMPLE].
Proof. split; reflexivity. Qed.

(** ** Space-Saving: the counter map stays within [M] entries *)

Lemma min_scan_key : forall cs m mi k mn,
  min_scan cs m mi = Some (Some k, mn) -> mi = Some k \/ In k (map fst cs).
Proof.
  induction cs as [| [k' it] cs IH]; simpl; intros m mi k mn H.
  - left; congruence.
  - destruct (Qlt_bool (count it) m).
    + destruct (dbl_to_size_t (count it)) as [z |]; [| discriminate].
      destruct (IH _ _ _ _ H) as [E | E]; right; [left; congruence | right; exact E].
    + destruct (IH _ _ _ _ H) as [E | E]; [left; exact E | right; right; exact E].
Qed.

Lemma assoc_erase_length {A} : forall (cs : list (Z * A)) k,
  In k (map fst cs) -> S (List.length (assoc_erase k cs)) = List.length cs.
Proof.
  induction cs as [| [k' v] cs IH]; simpl; intros k Hin; [contradiction |].
  destruct (Z.eqb_spec k k') as [-> | Hne]; [reflexivity |].
  simpl; f_equal; apply IH.
  destruct Hin as [E | E]; [congruence | exact E].
Qed.

Lemma assoc_set_length {A} : forall (cs : list (Z * A)) k v v',
  assoc_find k cs = Some v -> List.length (assoc_set k v' cs) = List.length cs.
Proof.
  induction cs as [| [k' w] cs IH]; simpl; intros k v v' Hf; [discriminate |].
  destruct (Z.eqb k k'); simpl; [reflexivity | f_equal; eapply IH; eassumption].
Qed.

Section SpaceSaverBound.
Context {D : Type} (next : NodeOps D) (weighted : bool).

Lemma ss_count_shape : forall st st' r,
  ss_count next st = (st', r) ->
  st'.(M_) = st.(M_) /\ (st'.(ss_counters_) = [] \/ st'.(ss_counters_) = st.(ss_counters_)).
Proof.
  intros st st' r H; unfold ss_count in H.
  destruct (put_all _ _ _) as [d b]; destruct b; injection H as <- <-; simpl; auto.
Qed.

Lemma ss_complete_shape : forall st,
  (ss_complete next st).(M_) = st.(M_)
  /\ ((ss_complete next st).(ss_counters_) = []
      \/ (ss_complete next st).(ss_counters_) = st.(ss_counters_)).
Proof.
  intros st; unfold ss_complete.
  destruct (ss_count next st) as [st1 r] eqn:E.
  apply ss_count_shape in E; exact E.
Qed.

Lemma ss_put_bound : forall st s st' r,
  ss_put next weighted st s = Some (st', r) ->
  st'.(M_) = st.(M_)
  /\ ((List.length st.(ss_counters_) <= st.(M_))%nat ->
      (List.length st'.(ss_counters_) <= st'.(M_))%nat).
Proof.
  intros st s st' r H; unfold ss_put in H.
  destruct (is_empty s).
  - injection H as H.
    destruct (ss_count_shape st st' r H) as [HM [Hc | Hc]];
      rewrite HM, Hc; simpl; split; [reflexivity | lia | reflexivity | auto].
  - destruct (weighted && negb (has_float_bit s)).
    + injection H as <- <-; auto.
    + destruct (assoc_find (paramid s) (ss_counters_ st)) as [it |] eqn:Hf.
      * injection H as <- <-; simpl; split; [reflexivity |].
        erewrite assoc_set_length by eassumption; auto.
      * destruct (Nat.eqb_spec (List.length (ss_counters_ st)) (M_ st)) as [HM | HM].
        -- destruct (min_scan _ _ _) as [[[k |] mn] |] eqn:Hs; try discriminate.
           injection H as <- <-; simpl; split; [reflexivity | intros _].
           apply min_scan_key in Hs; destruct Hs as [Hs | Hs]; [discriminate |].
           rewrite length_app; simpl.
           pose proof (assoc_erase_length _ _ Hs); lia.
        -- injection H as <- <-; simpl; split; [reflexivity |].
           rewrite length_app; simpl; lia.
Qed.

End SpaceSaverBound.

(** C8: every state a Space-Saving node constructed with error [eps] can
    reach, through [put], [complete] and [set_error], holds at most
    [M = ceil(1/eps)] counters. *)
Theorem space_saver_size_bounded :
  forall {D : Type} (next : NodeOps D) (weighted : bool) (eps p : Q) (d0 : D)
         (st : SpaceSaver (D := D)),
  ss_reachable next weighted eps p d0 st ->
  st.(M_) = Z.to_nat (Qceiling (/ eps))
  /\ (List.length st.(ss_counters_) <= st.(M_))%nat.
Proof.
  intros D next weighted eps p d0 st Hr.
  induction Hr as [| st s st' r Hr [IHM IHl] Hp | st Hr [IHM IHl] | st status Hr [IHM IHl]].
  - simpl; split; [reflexivity | lia].
  - destruct (ss_put_bound next weighted st s st' r Hp) as [HM Hl].
    split; [congruence | auto].
  - destruct (ss_complete_shape next st) as [HM [Hc | Hc]];
      rewrite HM, Hc; simpl; split; auto; lia.
  - simpl; auto.
Qed.

(** Witness for C8: the state after one sample in a node with error 1/2. *)
Lemma space_saver_size_bounded_witness :
  ss_reachable sink_ops false (1 # 2) (1 # 2) []
    (mkSS [] [(1, mkItem 1 0)] 1 2 (1 # 2))
  /\ (mkSS ([] : list event) [(1, mkItem 1 0)] 1 2 (1 # 2)).(M_)
       = Z.to_nat (Qceiling (/ (1 # 2)))
  /\ Nat.le (List.length (mkSS ([] : list event) [(1, mkItem 1 0)] 1 2 (1 # 2)).(ss_counters_))
            (mkSS ([] : list event) [(1, mkItem 1 0)] 1 2 (1 # 2)).(M_).
Proof.
  assert (Hr : ss_reachable sink_ops false (1 # 2) (1 # 2) []
                 (mkSS [] [(1, mkItem 1 0)] 1 2 (1 # 2))).
  { eapply (ss_reach_put _ _ _ _ _ (ss_new (1 # 2) (1 # 2) []) (fsample 1 1 1) _ true).
    - apply ss_reach_new.
    - reflexivity. }
  split; [exact Hr | apply (space_saver_size_bounded sink_ops false _ _ _ _ Hr)].
Defined.

(** ** AnomalyDetector on float samples *)

(** C6: on a data sample with [FLOAT_BIT], [put] with a negative value calls
    [set_error(AKU_EANOMALY_NEG_VAL)] on the successor and returns false
    (the detector is left as it was); a non-negative value is added to the
    detector, and the sample is forwarded with [URGENT] set when it is an
    anomaly candidate, or dropped with result true when it is not. *)
Theorem anomaly_detector_put_float :
  forall {D Det : Type} (next : NodeOps D) (det_add : Det -> Z -> Q -> Det)
         (cand : Det -> Z -> bool) (move : Det -> Det)
         (st : AnomalyDetector (D := D) (Det := Det)) (s : aku_Sample),
  is_empty s = false ->
  has_float_bit s = true ->
  ((s.(payload_float64) < 0)%Q ->
     ad_put next det_add cand move st s =
       (mkAD st.(detector_) (n_set_error next st.(ad_next_) AKU_EANOMALY_NEG_VAL), false))
  /\ ((0 <= s.(payload_float64))%Q ->
      cand (det_add st.(detector_) s.(paramid) s.(payload_float64)) s.(paramid) = true ->
      ad_put next det_add cand move st s =
        (let (d, r) := n_put next st.(ad_next_)
                         (with_type s (Z.lor s.(payload_type) PData.URGENT)) in
         (mkAD (det_add st.(detector_) s.(paramid) s.(payload_float64)) d, r)))
  /\ ((0 <= s.(payload_float64))%Q ->
      cand (det_add st.(detector_) s.(paramid) s.(payload_float64)) s.(paramid) = false ->
      ad_put next det_add cand move st s =
        (mkAD (det_add st.(detector_) s.(paramid) s.(payload_float64)) st.(ad_next_), true)).
Proof.
  intros D Det next det_add cand move st s He Hf.
  unfold ad_put; rewrite He, Hf; unfold Qlt_bool.
  destruct (Qle_bool 0 (payload_float64 s)) eqn:E; simpl.
  - apply Qle_bool_iff in E.
    split; [intros Hv; exfalso; exact (Qlt_not_le _ _ Hv E) |].
    split; intros _ Hc; rewrite Hc; reflexivity.
  - assert (Hn : ~ (0 <= payload_float64 s)%Q)
      by (intro Hv; apply Qle_bool_iff in Hv; congruence).
    split; [intros _; reflexivity |].
    split; intros Hv; exfalso; exact (Hn Hv).
Qed.

(** Witness for C6: a sample of value -1 reaching a threshold detector. *)
Lemma anomaly_detector_put_float_witness :
  is_empty (fsample 1 1 (-1)) = false /\ has_float_bit (fsample 1 1 (-1)) = true
  /\ ad_put sink_ops threshold_det_add threshold_det_candidate threshold_det_move
       (mkAD 0%Q []) (fsample 1 1 (-1))
     = (mkAD 0%Q [EvError AKU_EANOMALY_NEG_VAL], false).
Proof.
  split; [reflexivity | split; [reflexivity |]].
  apply (anomaly_detector_put_float sink_ops threshold_det_add threshold_det_candidate
           threshold_det_move (mkAD 0%Q []) (fsample 1 1 (-1))); reflexivity.
Defined.

(** ** RandomSamplingNode with a full buffer *)

Lemma set_at_in_range {A} : forall (l : list A) (ix : nat) (x : A),
  (ix < List.length l)%nat ->
  exists l', set_at l ix x = Some l' /\ List.length l' = List.length l /\ In x l'.
Proof.
  induction l as [| y l IH]; simpl; intros ix x Hix; [lia |].
  destruct ix as [| ix].
  - exists (x :: l); simpl; auto.
  - destruct (IH ix x ltac:(lia)) as [l' [E [Hl Hin]]].
    rewrite E; exists (y :: l'); simpl; auto.
Qed.

(** C10 (amended): for a capacity [k >= 1], when the buffer holds [k]
    samples, [put] on a data sample stores it: the drawn index
    [random_() % k] is below [k], the buffer keeps [k] elements, contains
    the new sample, and [put] returns true. *)
Theorem reservoir_full_put_stores :
  forall {D Rand : Type} (next : NodeOps D) (rand_draw : Rand -> Z * Rand)
         (st : RandomSamplingNode (D := D) (Rand := Rand)) (s : aku_Sample),
  is_empty s = false ->
  1 <= st.(buffer_size_) < 2 ^ 32 ->
  Z.of_nat (List.length st.(samples_)) = st.(buffer_size_) ->
  exists st', rsn_put next rand_draw st s = Some (st', true)
    /\ st'.(buffer_size_) = st.(buffer_size_)
    /\ Z.of_nat (List.length st'.(samples_)) = st.(buffer_size_)
    /\ In s st'.(samples_).
Proof.
  intros D Rand next rand_draw st s He Hk Hlen.
  unfold rsn_put; rewrite He, Hlen, Z.ltb_irrefl.
  destruct (rand_draw (random_ st)) as [r rnd'].
  replace (st.(buffer_size_) =? 0) with false by (symmetry; apply Z.eqb_neq; lia).
  assert (Hm : 0 <= r mod buffer_size_ st < buffer_size_ st) by (apply Z.mod_pos_bound; lia).
  rewrite (Z.mod_small (r mod buffer_size_ st) (2 ^ 32)) by lia.
  replace (r mod buffer_size_ st <? buffer_size_ st) with true by (symmetry; apply Z.ltb_lt; lia).
  destruct (set_at_in_range (samples_ st) (Z.to_nat (r mod buffer_size_ st)) s)
    as [l' [E [Hl Hin]]]; [lia |].
  rewrite E; eexists; split; [reflexivity |]; simpl; split; [reflexivity |]; split; [lia | exact Hin].
Qed.

(** Witness for C10: a reservoir of size 2 holding two samples. *)
Lemma reservoir_full_put_stores_witness :
  is_empty (fsample 3 7 1) = false
  /\ 1 <= 2 < 2 ^ 32
  /\ Z.of_nat (List.length [fsample 1 5 1; fsample 2 3 1]) = 2
  /\ exists st', rsn_put sink_ops lcg (mkRSN 2 [fsample 1 5 1; fsample 2 3 1] 7 []) (fsample 3 7 1)
                 = Some (st', true)
       /\ st'.(buffer_size_) = 2
       /\ Z.of_nat (List.length st'.(samples_)) = 2
       /\ In (fsample 3 7 1) st'.(samples_).
Proof.
  split; [reflexivity |]. split; [lia |]. split; [reflexivity |].
  apply (reservoir_full_put_stores sink_ops lcg (mkRSN 2 [fsample 1 5 1; fsample 2 3 1] 7 [])
           (fsample 3 7 1)); simpl; [reflexivity | lia | reflexivity].
Defined.

(** C10: with capacity 0 the buffer already holds [k = 0] samples, and [put]
    on a data sample does not store it and return true: it reaches a modulo
    by zero. *)
Lemma reservoir_zero_capacity_put_fails :
  ~ (exists st', rsn_put sink_ops lcg (rsn_new 0 7 []) (fsample 1 5 1) = Some (st', true)
                 /\ In (fsample 1 5 1) st'.(samples_)).
Proof. intros [st' [H _]]; vm_compute in H; discriminate H. Qed.

(** ** NodeBuilder errors *)

Ltac destruct_results :=
  repeat match goal with
         | H : context [match ?x with _ => _ end] |- _ => destruct x eqn:?
         | H : context [if ?b then _ else _] |- _ => destruct b eqn:?
         end.






(** * Further properties of the operators *)

(** ** Sorting and forwarding helpers *)

Section SortProps.
Context {A : Type} (lt : A -> A -> bool)
        (lt_asym : forall a b, lt a b = true -> lt b a = false).

(** The order [stable_sort] produces: no element is strictly below its
    predecessor. *)
Definition not_below (a b : A) : Prop := lt b a = false.

Lemma insert_stable_perm : forall x l, Permutation (insert_stable lt x l) (x :: l).
Proof.
  intros x l; induction l as [| y l IH]; simpl; [reflexivity |].
  destruct (lt y x); [| reflexivity].
  rewrite IH; apply perm_swap.
Qed.

Lemma stable_sort_perm : forall l, Permutation (stable_sort lt l) l.
Proof.
  induction l as [| x l IH]; simpl; [reflexivity |].
  rewrite insert_stable_perm, IH; reflexivity.
Qed.

Lemma insert_stable_hd : forall y x l,
  not_below y x -> HdRel not_below y l -> HdRel not_below y (insert_stable lt x l).
Proof.
  intros y x l Hyx Hyl; destruct l as [| z l]; simpl.
  - constructor; exact Hyx.
  - destruct (lt z x); constructor; [inversion Hyl; assumption | exact Hyx].
Qed.

Lemma insert_stable_sorted : forall x l,
  Sorted not_below l -> Sorted not_below (insert_stable lt x l).
Proof.
  intros x l; induction l as [| y l IH]; simpl; intros Hs.
  - repeat constructor.
  - destruct (lt y x) eqn:E.
    + inversion Hs as [| ? ? Hl Hh]; subst.
      constructor; [apply IH; exact Hl |].
      apply insert_stable_hd; [unfold not_below; apply lt_asym; exact E | exact Hh].
    + constructor; [exact Hs | constructor; exact E].
Qed.

Lemma stable_sort_sorted : forall l, Sorted not_below (stable_sort lt l).
Proof.
  induction l as [| x l IH]; simpl; [constructor | apply insert_stable_sorted; exact IH].
Qed.

End SortProps.

Lemma ts_id_less_asym : forall a b, ts_id_less a b = true -> ts_id_less b a = false.
Proof.
  unfold ts_id_less; intros a b H.
  apply orb_true_iff in H; apply orb_false_iff.
  destruct H as [H | H].
  - apply Z.ltb_lt in H; split; [apply Z.ltb_ge; lia |].
    apply andb_false_iff; left; apply Z.eqb_neq; lia.
  - apply andb_true_iff in H; destruct H as [H1 H2].
    apply Z.eqb_eq in H1; apply Z.ltb_lt in H2.
    split; [apply Z.ltb_ge; lia |].
    apply andb_false_iff; right; apply Z.ltb_ge; lia.
Qed.

Lemma Qlt_bool_asym : forall a b, Qlt_bool a b = true -> Qlt_bool b a = false.
Proof.
  unfold Qlt_bool; intros a b H.
  apply negb_true_iff in H; apply negb_false_iff.
  apply Qle_bool_iff.
  destruct (Qlt_le_dec a b) as [Hl | Hl]; [apply Qlt_le_weak; exact Hl |].
  apply Qle_bool_iff in Hl; congruence.
Qed.

Lemma put_all_sink : forall tr l, put_all sink_ops tr l = (tr ++ map EvPut l, true).
Proof.
  intros tr l; revert tr; induction l as [| s l IH]; intros tr; simpl.
  - rewrite app_nil_r; reflexivity.
  - rewrite IH, <- app_assoc; reflexivity.
Qed.

(** ** FilterByIdNode *)

(** X: feeding a filter node over the sink forwards, in order, exactly the
    empty sentinels and the data samples whose id satisfies the predicate,
    and every [put] returns true. *)
Theorem filter_over_sink :
  forall (op : Z -> bool) (tr : list event) (l : list aku_Sample),
  put_all (FilterByIdNode sink_ops op) tr l
    = (tr ++ map EvPut (filter (fun s => is_empty s || op s.(paramid)) l), true).
Proof.
  intros op tr l; revert tr; induction l as [| s l IH]; intros tr; simpl.
  - rewrite app_nil_r; reflexivity.
  - unfold filter_put; destruct (is_empty s); simpl.
    + rewrite IH, <- app_assoc; reflexivity.
    + destruct (op (paramid s)); simpl; [rewrite IH, <- app_assoc |]; reflexivity || apply IH.
Qed.

(** ** RandomSamplingNode *)

(** X: an empty sentinel makes the reservoir over the sink emit its buffer
    sorted by (timestamp, paramid) (a permutation of the buffer, in an order
    where no sample is below its predecessor), clear the buffer and return
    true; the sentinel itself is not forwarded. *)
Theorem reservoir_sentinel_flush :
  forall {Rand : Type} (rand_draw : Rand -> Z * Rand)
         (st : RandomSamplingNode (D := list event) (Rand := Rand)) (s : aku_Sample),
  is_empty s = true ->
  exists out,
    rsn_put sink_ops rand_draw st s
      = Some (mkRSN st.(buffer_size_) [] st.(random_) (st.(rs_next_) ++ map EvPut out), true)
    /\ Permutation out st.(samples_)
    /\ Sorted (fun a b => ts_id_less b a = false) out.
Proof.
  intros Rand rand_draw st s He.
  exists (stable_sort ts_id_less st.(samples_)).
  unfold rsn_put, rsn_flush; rewrite He, put_all_sink.
  split; [reflexivity |]. split.
  - apply stable_sort_perm.
  - apply (stable_sort_sorted ts_id_less ts_id_less_asym).
Qed.

Lemma reservoir_sentinel_flush_witness :
  is_empty (sentinel_at 10) = true
  /\ exists out,
    rsn_put sink_ops lcg (mkRSN 2 [fsample 1 5 1; fsample 2 3 1] 7 []) (sentinel_at 10)
      = Some (mkRSN 2 [] 7 ([] ++ map EvPut out), true)
    /\ Permutation out [fsample 1 5 1; fsample 2 3 1]
    /\ Sorted (fun a b => ts_id_less b a = false) out.
Proof.
  split; [reflexivity |].
  apply (reservoir_sentinel_flush lcg (mkRSN 2 [fsample 1 5 1; fsample 2 3 1] 7 [])
           (sentinel_at 10)); reflexivity.
Defined.

Lemma rsn_put_data_len :
  forall {D Rand : Type} (next : NodeOps D) (rand_draw : Rand -> Z * Rand)
         (st : RandomSamplingNode (D := D) (Rand := Rand)) (s : aku_Sample),
  is_empty s = false ->
  1 <= st.(buffer_size_) < 2 ^ 32 ->
  Z.of_nat (List.length st.(samples_)) <= st.(buffer_size_) ->
  exists st', rsn_put next rand_draw st s = Some (st', true)
    /\ st'.(buffer_size_) = st.(buffer_size_)
    /\ st'.(rs_next_) = st.(rs_next_)
    /\ Z.of_nat (List.length st'.(samples_))
       = Z.min (Z.of_nat (List.length st.(samples_)) + 1) st.(buffer_size_).
Proof.
  intros D Rand next rand_draw st s He Hk Hlen.
  unfold rsn_put; rewrite He.
  destruct (Z.ltb_spec (Z.of_nat (List.length (samples_ st))) (buffer_size_ st)) as [Hl | Hl].
  - eexists; split; [reflexivity |]; simpl; split; [reflexivity |]; split; [reflexivity |].
    rewrite length_app; simpl; lia.
  - destruct (rand_draw (random_ st)) as [r rnd'].
    assert (Heq : Z.of_nat (List.length (samples_ st)) = buffer_size_ st) by lia.
    rewrite Heq.
    replace (buffer_size_ st =? 0) with false by (symmetry; apply Z.eqb_neq; lia).
    assert (Hm : 0 <= r mod buffer_size_ st < buffer_size_ st) by (apply Z.mod_pos_bound; lia).
    rewrite (Z.mod_small (r mod buffer_size_ st) (2 ^ 32)) by lia.
    replace (r mod buffer_size_ st <? buffer_size_ st) with true by (symmetry; apply Z.ltb_lt; lia).
    destruct (set_at_in_range (samples_ st) (Z.to_nat (r mod buffer_size_ st)) s)
      as [l' [E [Hl' _]]]; [lia |].
    rewrite E; eexists; split; [reflexivity |]; simpl; split; [reflexivity |].
    split; [reflexivity | lia].
Qed.

(** X: a reservoir of capacity [k >= 1] fed [n] data samples from an empty
    buffer accepts them all and holds [min(n, k)] samples, having forwarded
    nothing. *)
Theorem reservoir_fill_min :
  forall {D Rand : Type} (next : NodeOps D) (rand_draw : Rand -> Z * Rand)
         (k : Z) (rnd : Rand) (d : D) (l : list aku_Sample),
  1 <= k < 2 ^ 32 ->
  forallb (fun s => negb (is_empty s)) l = true ->
  exists st', rsn_feed next rand_draw (rsn_new k rnd d) l = Some st'
    /\ st'.(rs_next_) = d
    /\ Z.of_nat (List.length st'.(samples_)) = Z.min (Z.of_nat (List.length l)) k.
Proof.
  intros D Rand next rand_draw k rnd d l Hk Hl.
  cut (forall l (st : RandomSamplingNode (D := D) (Rand := Rand)),
         forallb (fun s => negb (is_empty s)) l = true ->
         st.(buffer_size_) = k -> st.(rs_next_) = d ->
         Z.of_nat (List.length st.(samples_)) <= k ->
         exists st', rsn_feed next rand_draw st l = Some st'
           /\ st'.(rs_next_) = d
           /\ Z.of_nat (List.length st'.(samples_))
              = Z.min (Z.of_nat (List.length st.(samples_)) + Z.of_nat (List.length l)) k).
  { intros H; destruct (H l (rsn_new k rnd d) Hl eq_refl eq_refl) as [st' [E [Hd Hn]]];
      [simpl; lia |].
    exists st'; split; [exact E | split; [exact Hd |]]; rewrite Hn; simpl; lia. }
  clear l Hl; induction l as [| s l IH]; intros st Hl Hb Hd Hn; simpl.
  - exists st; split; [reflexivity |]; split; [exact Hd | lia].
  - simpl in Hl; apply andb_true_iff in Hl; destruct Hl as [Hs Hl].
    apply negb_true_iff in Hs.
    destruct (rsn_put_data_len next rand_draw st s Hs ltac:(lia) ltac:(lia))
      as [st1 [E [Hb1 [Hd1 Hn1]]]].
    rewrite E.
    destruct (IH st1 Hl ltac:(congruence) ltac:(congruence) ltac:(lia)) as [st' [E' [Hd' Hn']]].
    exists st'; split; [exact E' | split; [exact Hd' |]].
    rewrite Hn', Hn1; lia.
Qed.

Lemma reservoir_fill_min_witness :
  1 <= 2 < 2 ^ 32
  /\ forallb (fun s => negb (is_empty s)) [fsample 1 5 1; fsample 2 3 1; fsample 3 7 1] = true
  /\ exists st', rsn_feed sink_ops lcg (rsn_new 2 7 [])
                   [fsample 1 5 1; fsample 2 3 1; fsample 3 7 1] = Some st'
       /\ st'.(rs_next_) = []
       /\ Z.of_nat (List.length st'.(samples_))
          = Z.min (Z.of_nat (List.length [fsample 1 5 1; fsample 2 3 1; fsample 3 7 1])) 2.
Proof.
  split; [lia |]. split; [reflexivity |].
  apply (reservoir_fill_min sink_ops lcg 2 7 [] [fsample 1 5 1; fsample 2 3 1; fsample 3 7 1]);
    [lia | reflexivity].
Defined.

(** X: every defined [put] keeps the reservoir's capacity and never grows
    the buffer beyond it. *)
Theorem reservoir_put_bounded :
  forall {D Rand : Type} (next : NodeOps D) (rand_draw : Rand -> Z * Rand)
         (st st' : RandomSamplingNode (D := D) (Rand := Rand)) (s : aku_Sample) (r : bool),
  rsn_put next rand_draw st s = Some (st', r) ->
  Z.of_nat (List.length st.(samples_)) <= st.(buffer_size_) ->
  st'.(buffer_size_) = st.(buffer_size_)
  /\ Z.of_nat (List.length st'.(samples_)) <= st'.(buffer_size_).
Proof.
  intros D Rand next rand_draw st st' s r H Hl.
  unfold rsn_put in H.
  destruct (is_empty s).
  - injection H as H; unfold rsn_flush in H.
    destruct (put_all next (rs_next_ st) (stable_sort ts_id_less (samples_ st))) as [d b].
    destruct b; injection H as <- _; simpl; split; try reflexivity; [lia |].
    rewrite (Permutation_length (stable_sort_perm ts_id_less _)); exact Hl.
  - destruct (Z.ltb_spec (Z.of_nat (List.length (samples_ st))) (buffer_size_ st)) as [Hlt | Hge].
    + injection H as <- _; simpl; rewrite length_app; simpl; split; [reflexivity | lia].
    + destruct (rand_draw (random_ st)) as [x rnd'].
      destruct (Z.of_nat (List.length (samples_ st)) =? 0); [discriminate |].
      destruct (_ <? buffer_size_ st).
      * destruct (set_at _ _ _) as [l' |] eqn:E; [| discriminate].
        injection H as <- _; simpl; split; [reflexivity |].
        assert (Hlen : List.length l' = List.length (samples_ st)).
        { clear -E. revert l' E; generalize (Z.to_nat ((x mod Z.of_nat (List.length (samples_ st))) mod 2 ^ 32)).
          induction (samples_ st) as [| y l IH]; intros n l' E; simpl in E; [discriminate |].
          destruct n; [injection E as <-; reflexivity |].
          destruct (set_at l n s) as [m |] eqn:E'; simpl in E; [| discriminate].
          injection E as <-; simpl; f_equal; eapply IH; exact E'. }
        rewrite Hlen; exact Hl.
      * injection H as <- _; simpl; split; [reflexivity | exact Hl].
Qed.

Lemma reservoir_put_bounded_witness :
  rsn_put sink_ops lcg (mkRSN 1 [fsample 1 5 1] 7 []) (fsample 2 3 1)
    = Some (mkRSN 1 [fsample 2 3 1] 3429651764 [], true)
  /\ Z.of_nat (List.length [fsample 1 5 1]) <= 1
  /\ 1 = 1 /\ Z.of_nat (List.length [fsample 2 3 1]) <= 1.
Proof.
  assert (H : rsn_put sink_ops lcg (mkRSN 1 [fsample 1 5 1] 7 []) (fsample 2 3 1)
                = Some (mkRSN 1 [fsample 2 3 1] 3429651764 [], true)) by reflexivity.
  split; [exact H |]. split; [simpl; lia |].
  exact (reservoir_put_bounded sink_ops lcg _ _ _ _ H ltac:(simpl; lia)).
Defined.

(** ** SlidingWindow / MovingAverage *)


Section WindowFeed.
Context {State : Type} `{WindowState State}.


End WindowFeed.





(** The synthesized sample of one ready series. *)
Lemma average_loop_sink {State : Type} `{WindowState State} :
  forall ts (cs : list (Z * State)) tr,
  average_loop sink_ops ts cs tr
  = (map window_after cs, tr ++ map (window_emit ts) (filter (fun kv => ws_ready (snd kv)) cs), true).
Proof.
  intros ts cs; induction cs as [| [id st] cs IH]; intros tr; simpl.
  - rewrite app_nil_r; reflexivity.
  - unfold window_after at 1; simpl.
    destruct (ws_ready st); simpl; rewrite IH; [rewrite <- app_assoc |]; reflexivity.
Qed.

(** X: on an empty sentinel at [t], a moving average over the sink emits one
    sample [(id, t, value)] per ready series in map order, then
    [EMPTY_SAMPLE], returns true, keeps every series key and leaves no
    series ready (each ready state is reset). *)
Theorem moving_average_sentinel_flush :
  forall (st : SlidingWindow (D := list event) (State := MovingAverageCounter)) (s : aku_Sample),
  is_empty s = true ->
  sw_put sink_ops st s
    = (mkSW (st.(sw_next_)
              ++ map (window_emit s.(timestamp)) (filter (fun kv => ws_ready (snd kv)) st.(counters_))
              ++ [EvPut EMPTY_SAMPLE])
            (map window_after st.(counters_)), true)
  /\ forallb (fun kv => negb (ws_ready (snd kv))) (map window_after st.(counters_)) = true.
Proof.
  intros st s He; split.
  - unfold sw_put, average_samples; rewrite He, average_loop_sink; simpl.
    rewrite <- app_assoc; reflexivity.
  - induction (counters_ st) as [| [id c] cs IH]; cbn [map forallb]; [reflexivity |].
    rewrite IH, andb_true_r; unfold window_after; cbn [snd].
    destruct (ws_ready c) eqn:E; [reflexivity | rewrite E; reflexivity].
Qed.

Lemma moving_average_sentinel_flush_witness :
  is_empty (sentinel_at 10) = true
  /\ sw_put sink_ops (mkSW [] [(1, mkMAC 6 2)]) (sentinel_at 10)
    = (mkSW ([]
              ++ map (window_emit (sentinel_at 10).(timestamp))
                     (filter (fun kv => ws_ready (snd kv)) [(1, mkMAC 6 2)])
              ++ [EvPut EMPTY_SAMPLE])
            (map window_after [(1, mkMAC 6 2)]), true)
  /\ forallb (fun kv => negb (ws_ready (snd kv))) (map window_after [(1, mkMAC 6 2)]) = true.
Proof.
  split; [reflexivity |].
  apply (moving_average_sentinel_flush (mkSW [] [(1, mkMAC 6 2)]) (sentinel_at 10)).
  reflexivity.
Defined.

(** ** SpaceSaver *)

(** X: on an empty sentinel a Space-Saving node over the sink emits, in an
    order of non-increasing count, a permutation of one sample per counter
    whose [count - error] exceeds [N * P]; each carries the counter's count.
    It then empties the counter map, keeps [N], does not forward the
    sentinel and returns true. *)
Theorem space_saver_sentinel_report :
  forall (weighted : bool) (st : SpaceSaver (D := list event)) (s : aku_Sample),
  is_empty s = true ->
  exists out,
    ss_put sink_ops weighted st s
      = Some (mkSS (st.(ss_next_) ++ map EvPut out) [] st.(N_) st.(M_) st.(P_), true)
    /\ Permutation out (ss_report st)
    /\ Sorted (fun a b => Qlt_bool a.(payload_float64) b.(payload_float64) = false) out.
Proof.
  intros weighted st s He.
  exists (stable_sort (fun l r => Qlt_bool r.(payload_float64) l.(payload_float64)) (ss_report st)).
  unfold ss_put, ss_count; rewrite He, put_all_sink.
  split; [reflexivity |]. split; [apply stable_sort_perm |].
  apply (stable_sort_sorted (fun l r => Qlt_bool r.(payload_float64) l.(payload_float64))).
  intros a b; apply Qlt_bool_asym.
Qed.

Lemma space_saver_sentinel_report_witness :
  is_empty (sentinel_at 10) = true
  /\ exists out,
    ss_put sink_ops false (mkSS [] [(1, mkItem 1 0); (2, mkItem 3 0)] 4 2 (1 # 8)) (sentinel_at 10)
      = Some (mkSS ([] ++ map EvPut out) [] 4 2 (1 # 8), true)
    /\ Permutation out (ss_report (mkSS [] [(1, mkItem 1 0); (2, mkItem 3 0)] 4 2 (1 # 8)))
    /\ Sorted (fun a b => Qlt_bool a.(payload_float64) b.(payload_float64) = false) out.
Proof.
  split; [reflexivity |].
  apply (space_saver_sentinel_report false
           (mkSS [] [(1, mkItem 1 0); (2, mkItem 3 0)] 4 2 (1 # 8)) (sentinel_at 10)).
  reflexivity.
Defined.

(** X: every defined [put] of a data sample returns true without calling the
    successor; a weighted node ignores a sample without [FLOAT_BIT], and
    otherwise [N] grows by the sample's weight (1 for frequent-items, the
    value for heavy-hitters), whether the id was counted, inserted or put in
    place of an evicted one. *)
Theorem space_saver_put_weight :
  forall {D : Type} (next : NodeOps D) (weighted : bool) (st st' : SpaceSaver (D := D))
         (s : aku_Sample) (r : bool),
  is_empty s = false ->
  ss_put next weighted st s = Some (st', r) ->
  r = true /\ st'.(ss_next_) = st.(ss_next_)
  /\ st'.(M_) = st.(M_) /\ st'.(P_) = st.(P_)
  /\ (if weighted && negb (has_float_bit s) then st' = st
      else st'.(N_) = (st.(N_) + (if weighted then s.(payload_float64) else 1))%Q).
Proof.
  intros D next weighted st st' s r He H.
  unfold ss_put in H; rewrite He in H.
  destruct (weighted && negb (has_float_bit s)) eqn:W.
  - injection H as <- <-; auto.
  - destruct (assoc_find (paramid s) (ss_counters_ st)).
    + injection H as <- <-; simpl; auto 6.
    + destruct (Nat.eqb _ _).
      * destruct (min_scan _ _ _) as [[[k |] mn] |]; try discriminate.
        injection H as <- <-; simpl; auto 6.
      * injection H as <- <-; simpl; auto 6.
Qed.

Lemma space_saver_put_weight_witness :
  is_empty (fsample 1 0 (5 # 2)) = false
  /\ exists st' r,
    ss_put sink_ops true (ss_new 1 1 []) (fsample 1 0 (5 # 2)) = Some (st', r)
    /\ r = true /\ st'.(ss_next_) = []
    /\ st'.(M_) = 1%nat /\ st'.(P_) = 1%Q
    /\ st'.(N_) = (0 + 5 # 2)%Q.
Proof.
  assert (He : is_empty (fsample 1 0 (5 # 2)) = false) by reflexivity.
  split; [exact He |].
  destruct (ss_put sink_ops true (ss_new 1 1 []) (fsample 1 0 (5 # 2))) as [[st' r] |] eqn:H;
    [| discriminate H].
  exists st', r; split; [reflexivity |].
  exact (space_saver_put_weight sink_ops true (ss_new 1 1 []) st' (fsample 1 0 (5 # 2)) r He H).
Defined.

(** ** AnomalyDetector: sentinels and blobs *)

(** X: an empty sentinel moves the detector's sliding window and is
    forwarded unchanged (the successor's answer is returned); a blob sample
    (neither empty nor [FLOAT_BIT]) leaves the node as it is, is not
    forwarded, and [put] returns true. *)
Theorem anomaly_detector_sentinel_and_blob :
  forall {D Det : Type} (next : NodeOps D) (det_add : Det -> Z -> Q -> Det)
         (cand : Det -> Z -> bool) (move : Det -> Det)
         (st : AnomalyDetector (D := D) (Det := Det)) (s : aku_Sample),
  (is_empty s = true ->
     ad_put next det_add cand move st s
     = (mkAD (move st.(detector_)) (fst (n_put next st.(ad_next_) s)),
        snd (n_put next st.(ad_next_) s)))
  /\ (is_empty s = false -> has_float_bit s = false ->
      ad_put next det_add cand move st s = (st, true)).
Proof.
  intros D Det next det_add cand move st s; split; intros He; unfold ad_put; rewrite He.
  - destruct (n_put next (ad_next_ st) s); reflexivity.
  - intros Hf; rewrite Hf; reflexivity.
Qed.

Lemma anomaly_detector_sentinel_and_blob_witness :
  is_empty (sentinel_at 5) = true
  /\ ad_put sink_ops threshold_det_add threshold_det_candidate threshold_det_move
       (mkAD 0%Q []) (sentinel_at 5)
     = (mkAD 0%Q [EvPut (sentinel_at 5)], true)
  /\ is_empty (mkSample 1 1 PData.BLOB_BIT 0) = false
  /\ has_float_bit (mkSample 1 1 PData.BLOB_BIT 0) = false
  /\ ad_put sink_ops threshold_det_add threshold_det_candidate threshold_det_move
       (mkAD 0%Q []) (mkSample 1 1 PData.BLOB_BIT 0)
     = (mkAD 0%Q [], true).
Proof.
  split; [reflexivity |]. split.
  { exact (proj1 (anomaly_detector_sentinel_and_blob sink_ops threshold_det_add
            threshold_det_candidate threshold_det_move (mkAD 0%Q []) (sentinel_at 5)) eq_refl). }
  split; [reflexivity |]. split; [reflexivity |].
  exact (proj2 (anomaly_detector_sentinel_and_blob sink_ops threshold_det_add
           threshold_det_candidate threshold_det_move (mkAD 0%Q []) (mkSample 1 1 PData.BLOB_BIT 0))
           eq_refl eq_refl).
Defined.

(** ** GroupByStatement: the window it keeps *)

(** X: every call to [put] keeps the step, and keeps the window one step
    wide (modulo 2^64) once the first sample has set it, whatever the sample
    and whether or not the successor accepted a sentinel or the sample. *)
Theorem groupby_window_width :
  forall {D : Type} (next : NodeOps D) (g : GroupByStatement) (d : D) (s : aku_Sample),
  groupby_width_ok g ->
  let g' := fst (fst (groupby_put next g d s)) in
  g'.(step_) = g.(step_) /\ groupby_width_ok g'
  /\ (g.(step_) <> 0 -> g'.(first_hit_) = false).
Proof.
  intros D next g d s Hw g'; subst g'.
  unfold groupby_put.
  destruct (Z.eqb (step_ g) 0) eqn:E0.
  { destruct (n_put next d s); simpl; split; [reflexivity | split; [exact Hw |]].
    intros H; apply Z.eqb_eq in E0; contradiction. }
  set (g1 := if first_hit_ g
             then mkGroupBy (step_ g) false (timestamp s / step_ g * step_ g)
                    ((timestamp s / step_ g * step_ g + step_ g) mod TS_MOD)
             else g).
  assert (H1 : step_ g1 = step_ g /\ first_hit_ g1 = false
               /\ upperbound_ g1 = (lowerbound_ g1 + step_ g) mod TS_MOD).
  { subst g1; destruct (first_hit_ g) eqn:F; simpl; [auto |].
    destruct Hw as [Hw | Hw]; [congruence | auto]. }
  destruct H1 as (Hs & Hf & Hu).
  assert (Hg1 : groupby_width_ok g1) by (right; rewrite Hs; exact Hu).
  destruct (Z.leb (upperbound_ g1) (timestamp s)).
  - destruct (n_put next d _) as [d1 r1]; destruct r1; simpl.
    + destruct (n_put next d1 s); simpl.
      split; [exact Hs |]. split; [| auto].
      right; unfold shift_bounds; cbn [upperbound_ lowerbound_ step_].
      rewrite Hu, Hs; reflexivity.
    + split; [exact Hs | split; [exact Hg1 | auto]].
  - destruct (Z.ltb (timestamp s) (lowerbound_ g1)).
    + destruct (n_put next d _) as [d1 r1]; destruct r1; simpl.
      * destruct (n_put next d1 s); simpl.
        split; [exact Hs |]. split; [| auto].
        right; unfold shift_bounds; cbn [upperbound_ lowerbound_ step_].
        rewrite Hu, Hs, Zminus_mod_idemp_l, Zplus_mod_idemp_l.
        f_equal; lia.
      * split; [exact Hs | split; [exact Hg1 | auto]].
    + destruct (n_put next d s); simpl; split; [exact Hs | split; [exact Hg1 | auto]].
Qed.

Lemma groupby_window_width_witness :
  groupby_width_ok (groupby_new 10)
  /\ (let g' := fst (fst (groupby_put sink_ops (groupby_new 10) [] (fsample 1 23 1))) in
      g'.(step_) = (groupby_new 10).(step_) /\ groupby_width_ok g'
      /\ ((groupby_new 10).(step_) <> 0 -> g'.(first_hit_) = false)).
Proof.
  assert (H : groupby_width_ok (groupby_new 10)) by (left; reflexivity).
  split; [exact H |].
  exact (groupby_window_width sink_ops (groupby_new 10) [] (fsample 1 23 1) H).
Defined.

(** X: the first sample opens the step-aligned window that contains it: for
    a positive step and a timestamp whose aligned window ends below 2^64, it
    is forwarded without a sentinel before it, and the window becomes
    [[ts / step * step, ts / step * step + step)]. *)
Theorem groupby_first_sample_opens_window :
  forall (g : GroupByStatement) (tr : list event) (s : aku_Sample),
  g.(first_hit_) = true -> 0 < g.(step_) -> 0 <= s.(timestamp) ->
  s.(timestamp) / g.(step_) * g.(step_) + g.(step_) < TS_MOD ->
  let lo := s.(timestamp) / g.(step_) * g.(step_) in
  groupby_put sink_ops g tr s
    = (mkGroupBy g.(step_) false lo (lo + g.(step_)), tr ++ [EvPut s], true)
  /\ lo <= s.(timestamp) < lo + g.(step_).
Proof.
  intros g tr s Hf Hs Ht Hb lo.
  assert (Hlo : lo <= timestamp s < lo + step_ g).
  { subst lo. pose proof (Z.mul_div_le (timestamp s) (step_ g) Hs).
    pose proof (Z.mod_pos_bound (timestamp s) (step_ g) Hs).
    pose proof (Z.div_mod (timestamp s) (step_ g) ltac:(lia)). lia. }
  split; [| exact Hlo].
  unfold groupby_put. rewrite Hf.
  replace (Z.eqb (step_ g) 0) with false by (symmetry; apply Z.eqb_neq; lia).
  cbn [upperbound_ lowerbound_].
  fold lo.
  rewrite (Z.mod_small (lo + step_ g) TS_MOD) by (subst lo; pose proof (Z.mul_div_le (timestamp s) (step_ g) Hs);
    assert (0 <= timestamp s / step_ g * step_ g) by (apply Z.mul_nonneg_nonneg; [apply Z.div_pos|]; lia); lia).
  replace (Z.leb (lo + step_ g) (timestamp s)) with false by (symmetry; apply Z.leb_gt; lia).
  replace (Z.ltb (timestamp s) lo) with false by (symmetry; apply Z.ltb_ge; lia).
  reflexivity.
Qed.

Lemma groupby_first_sample_opens_window_witness :
  (groupby_new 10).(first_hit_) = true /\ 0 < (groupby_new 10).(step_)
  /\ 0 <= (fsample 1 23 1).(timestamp)
  /\ (fsample 1 23 1).(timestamp) / 10 * 10 + 10 < TS_MOD
  /\ groupby_put sink_ops (groupby_new 10) [] (fsample 1 23 1)
     = (mkGroupBy 10 false 20 30, [] ++ [EvPut (fsample 1 23 1)], true)
  /\ 20 <= 23 < 30.
Proof.
  assert (Hb : (fsample 1 23 1).(timestamp) / (groupby_new 10).(step_) * (groupby_new 10).(step_)
               + (groupby_new 10).(step_) < TS_MOD) by (vm_compute; reflexivity).
  split; [reflexivity |]. split; [reflexivity |]. split; [simpl; lia |].
  split; [exact Hb |].
  exact (groupby_first_sample_opens_window (groupby_new 10) [] (fsample 1 23 1)
           eq_refl ltac:(simpl; lia) ltac:(simpl; lia) Hb).
Defined.

(** X: with a step of 0 the group-by is transparent: a scan over the sink
    forwards every sample unchanged and in order, then [stop] completes the
    sink once, and the group-by state never changes. *)
Theorem scan_step_zero_transparent :
  forall (tr : list event) (l : list aku_Sample),
  scan_run sink_ops (mkScan (groupby_new 0) tr) l
  = mkScan (groupby_new 0) (tr ++ map EvPut l ++ [EvComplete]).
Proof.
  intros tr l; unfold scan_run.
  assert (H : forall tr', scan_feed sink_ops (mkScan (groupby_new 0) tr') l
                          = mkScan (groupby_new 0) (tr' ++ map EvPut l)).
  { induction l as [| s l IH]; intros tr'; simpl.
    - rewrite app_nil_r; reflexivity.
    - rewrite IH, <- app_assoc; reflexivity. }
  rewrite H; unfold scan_stop; simpl; rewrite <- app_assoc; reflexivity.
Qed.

(** ** MetadataQueryProcessor *)

(** X: over the sink, a metadata query's [start] sends, in the order of the
    ids, one sample per id with timestamp 0 and type [PARAMID_BIT] and
    returns true; [put] refuses every sample and changes nothing; [stop]
    then completes the sink. *)
Theorem metadata_query_over_sink :
  forall (junk : Q) (ids : list Z) (tr : list event) (s : aku_Sample),
  meta_start sink_ops junk (mkMeta ids tr)
    = (mkMeta ids (tr ++ map (fun id => EvPut (mkSample id 0 PData.PARAMID_BIT junk)) ids), true)
  /\ meta_put (mkMeta ids tr) s = (mkMeta ids tr, false)
  /\ meta_stop sink_ops (fst (meta_start sink_ops junk (mkMeta ids tr)))
     = mkMeta ids (tr ++ map (fun id => EvPut (mkSample id 0 PData.PARAMID_BIT junk)) ids
                     ++ [EvComplete]).
Proof.
  intros junk ids tr s.
  assert (H : forall tr', meta_start_loop sink_ops junk ids tr'
             = (tr' ++ map (fun id => EvPut (mkSample id 0 PData.PARAMID_BIT junk)) ids, true)).
  { induction ids as [| id ids IH]; intros tr'; simpl.
    - rewrite app_nil_r; reflexivity.
    - rewrite IH, <- app_assoc; reflexivity. }
  unfold meta_start; cbn [ids_ root_]; rewrite H.
  split; [reflexivity |]. split; [reflexivity |].
  unfold meta_stop; simpl; rewrite <- app_assoc; reflexivity.
Qed.

(** ** NodeBuilder::make_sampler: what it builds *)

Ltac sampler_kind_done :=
  match goal with
  | Ht : inr ?x = inr ?s |- _ => is_var s; assert (Es : s = x) by congruence; subst s
  end;
  split;
  [ eexists; split; [reflexivity |];
    repeat match goal with E : String.eqb _ _ = _ |- _ => rewrite E; clear E end;
    reflexivity
  | intros; discriminate ].

Section BuilderSuccess.
Context (parse_uint32 : string -> option Z) (parse_double : string -> option Q)
        (parse_bool : string -> option bool).

(** X: when [make_sampler] succeeds, the description has a [name] and the
    node built is of the kind that name asks for; an anomaly detector it
    builds always uses a sliding-window method (a Holt-Winters one is never
    built), and takes 10 bits and 3 hashes when the description gives
    neither. *)
Theorem make_sampler_builds_named_kind :
  forall (pt : ptree) (s : Sampler),
  make_sampler parse_uint32 parse_double parse_bool pt = inr s ->
  (exists name, pt_find "name" pt = Some name
                /\ name_node_type name = Some (sampler_get_type s))
  /\ (forall h b t w m, s = MkAnomalyDetector h b t w m ->
        SLIDING_WINDOW m = true /\ HOLT_WINTERS m = false
        /\ (pt_find "bits" pt = None -> b = 10)
        /\ (pt_find "hashes" pt = None -> h = 3)).
Proof.
  intros pt s H.
  assert (Ht : make_sampler_try parse_uint32 parse_double parse_bool pt = inr s).
  { unfold make_sampler in H.
    destruct (make_sampler_try parse_uint32 parse_double parse_bool pt) as [[] | s'];
      try discriminate; exact H. }
  clear H.
  unfold make_sampler_try, get_string, unknown_algorithm in Ht.
  destruct (pt_find "name" pt) as [name |] eqn:En; [| discriminate].
  cbn [rbind] in Ht.
  unfold name_node_type.
  destruct (String.eqb name "reservoir") eqn:E1.
  { unfold rbind, lexical_cast in Ht; destruct_results; try discriminate.
    sampler_kind_done. }
  destruct (String.eqb name "moving-average") eqn:E2.
  { sampler_kind_done. }
  destruct (String.eqb name "moving-median") eqn:E3.
  { sampler_kind_done. }
  destruct (String.eqb name "frequent-items") eqn:E4.
  { unfold rbind, lexical_cast in Ht; destruct_results; try discriminate.
    sampler_kind_done. }
  destruct (String.eqb name "heavy-hitters") eqn:E5.
  { unfold rbind, lexical_cast in Ht; destruct_results; try discriminate.
    sampler_kind_done. }
  destruct (String.eqb name "anomaly-detector") eqn:E6; [| discriminate].
  unfold rbind in Ht.
  destruct (get_as parse_double pt "threshold") as [| thr]; [discriminate |].
  destruct (parse_anomaly_detector_type parse_bool pt) as [| m]; [discriminate |].
  destruct (SLIDING_WINDOW m) eqn:Sw; [| destruct (HOLT_WINTERS m); discriminate].
  destruct (get_as parse_uint32 pt "window") as [| w]; [discriminate |].
  lazymatch type of Ht with inr ?x = inr _ => assert (Es : s = x) by congruence end; subst s.
  split; [exists name; split; [reflexivity |]; rewrite E1, E2, E3, E4, E5, E6; reflexivity |].
  intros h b t w' m' E; injection E as <- <- <- <- <-.
  split; [exact Sw |]. split; [destruct m; try discriminate; reflexivity |].
  unfold get_default; split; intros ->; reflexivity.
Qed.

End BuilderSuccess.

Lemma make_sampler_builds_named_kind_witness :
  make_sampler_dec anomaly_detector_sma = inr (MkAnomalyDetector 3 10 (25 # 10) 8 SMA)
  /\ (exists name, pt_find "name" anomaly_detector_sma = Some name
        /\ name_node_type name = Some (sampler_get_type (MkAnomalyDetector 3 10 (25 # 10) 8 SMA)))
  /\ (forall h b t w m, MkAnomalyDetector 3 10 (25 # 10) 8 SMA = MkAnomalyDetector h b t w m ->
        SLIDING_WINDOW m = true /\ HOLT_WINTERS m = false
        /\ (pt_find "bits" anomaly_detector_sma = None -> b = 10)
        /\ (pt_find "hashes" anomaly_detector_sma = None -> h = 3)).
Proof.
  assert (H : make_sampler_dec anomaly_detector_sma
              = inr (MkAnomalyDetector 3 10 (25 # 10) 8 SMA)) by (vm_compute; reflexivity).
  split; [exact H |].
  exact (make_sampler_builds_named_kind dec_uint32 dec_double dec_bool anomaly_detector_sma _ H).
Defined.

(** ** SpaceSaver: exact below capacity *)





Section SpaceSaverExact.
Context {D : Type} (next : NodeOps D).


End SpaceSaverExact.



(** ** MovingMedianCounter *)

Lemma Qle_bool_self : forall q, Qle_bool q q = true.
Proof. intros q; apply Qle_bool_iff, Qle_refl. Qed.

Lemma filter_all_length {A} : forall (f : A -> bool) (l : list A),
  (forall x, In x l -> f x = true) -> List.length (filter f l) = List.length l.
Proof.
  intros f l H; induction l as [| a l IH]; simpl; [reflexivity |].
  rewrite (H a (or_introl eq_refl)); simpl; f_equal; apply IH.
  intros x Hx; apply H; right; exact Hx.
Qed.

Lemma filter_length_perm {A} : forall (f : A -> bool) (l l' : list A),
  Permutation l l' -> List.length (filter f l) = List.length (filter f l').
Proof.
  intros f l l' HP; induction HP; simpl.
  - reflexivity.
  - destruct (f x); simpl; congruence.
  - destruct (f x), (f y); reflexivity.
  - congruence.
Qed.

(** X: the value of a moving-median counter is one of its samples, and more
    than half of the samples ([n / 2 + 1] of the [n], counting the value
    itself) are no greater than it: [std::partial_sort] only orders the
    [n / 2] smallest samples, so [*middle] is some sample of the upper
    half, not necessarily the median. *)
Theorem moving_median_value_upper_half :
  forall (acc : list Q) (v : Q),
  moving_median_value acc v ->
  In v acc /\ (List.length acc / 2 < List.length (filter (fun x => Qle_bool x v) acc))%nat.
Proof.
  intros acc v H.
  destruct acc as [| x [| y acc']] eqn:Ea; [contradiction | |].
  { simpl in H; subst v; simpl; rewrite Qle_bool_self; split; [left; reflexivity | simpl; lia]. }
  cbn [moving_median_value] in H.
  rewrite <- Ea in H |- *.
  assert (H2 : (2 <= List.length acc)%nat) by (rewrite Ea; simpl; lia).
  clear Ea.
  destruct H as (r & (HP & _ & Hle) & Hv).
  set (k := (List.length acc / 2)%nat) in *.
  assert (Hk : (k < List.length r)%nat).
  { rewrite (Permutation_length HP); subst k. apply Nat.div_lt; lia. }
  assert (Hs : skipn k r = v :: skipn (S k) r).
  { rewrite <- Hv. clear -Hk. revert r Hk; induction k as [| k IH]; intros [| a r] Hk;
      simpl in *; try lia; [reflexivity |]. apply IH; lia. }
  split.
  - apply (Permutation_in _ HP); rewrite <- (firstn_skipn k r), Hs.
    apply in_or_app; right; left; reflexivity.
  - rewrite <- (filter_length_perm _ _ _ HP), <- (firstn_skipn k r), filter_app, length_app.
    rewrite filter_all_length.
    + rewrite length_firstn, Nat.min_l by lia.
      rewrite Hs; simpl; rewrite Qle_bool_self; simpl; lia.
    + intros z Hz; apply Qle_bool_iff, Hle; [exact Hz | rewrite Hs; left; reflexivity].
Qed.

(** For the samples 1, 2, 3 the counter may answer 3 rather than the
    median 2. *)
Lemma moving_median_value_upper_half_witness :
  moving_median_value [1; 2; 3]%Q 3%Q
  /\ In 3%Q [1; 2; 3]%Q
  /\ (List.length [1; 2; 3]%Q / 2 < List.length (filter (fun x => Qle_bool x 3) [1; 2; 3]%Q))%nat.
Proof.
  assert (H : moving_median_value [1; 2; 3]%Q 3%Q).
  { exists [1; 3; 2]%Q; split; [| reflexivity].
    split; [| split].
    - apply perm_skip, perm_swap.
    - simpl; repeat constructor.
    - simpl; intros x y [<- | []] [<- | [<- | []]]; vm_compute; discriminate. }
  split; [exact H |].
  exact (moving_median_value_upper_half [1; 2; 3]%Q 3%Q H).
Defined.
